(** * Tag and compliance aspects of the Summit Milan 2025 CDK application

    A shallow embedding of [infra/lib/aspects/compliance-aspect.ts]
    ([ComplianceAspect]), of the documentation aspect that follows it
    ([DocumentationAspect]) and of the call made by the application entry
    point, together with the properties the specification states about
    them.

    Conventions.
    - JavaScript values that the code reads through [as any] keep their
      dynamic nature: they are elements of [Js.value], with truthiness and
      the short-circuit [&&] written out.
    - A call that may throw returns [option]; [None] stands for a thrown
      [TypeError].
    - Every call of [Annotations.of(node).addError/addWarning] is recorded,
      in order, in a log that is threaded through [visit]; what the
      framework then keeps of a message it already holds for the node is
      not part of this repository. *)

From stdpp Require Import base option list strings gmap.


(** ** The fragment of JavaScript the aspects rely on *)

Module Js.

(** The values that the reflective reads [(x as any).tags] can yield. A
    tag manager keeps its tags in a [Map]: [MapObj entries] is that [Map],
    an object without own enumerable properties, whose entries are out of
    the reach of [Object.keys]. [Obj fields] is a plain object. *)
Inductive value : Type :=
| Undefined
| Null
| Bool (b : bool)
| Obj (fields : gmap string string)
| MapObj (entries : gmap string string).

(** ToBoolean. *)
Definition truthy (v : value) : bool :=
  match v with
  | Undefined | Null => false
  | Bool b => b
  | Obj _ | MapObj _ => true
  end.

(** [Object.keys(v)]: throws on [undefined] and [null], has no own keys
    on a primitive boolean or on a [Map], and lists the own keys of a
    plain object. *)
Definition keys (v : value) : option (list string) :=
  match v with
  | Undefined | Null => None
  | Bool _ | MapObj _ => Some []
  | Obj fields => Some (map_to_list fields).*1
  end.

(** [Array.prototype.includes] on an array of strings: exact
    (case-sensitive) equality with some element. *)
Definition includes (xs : list string) (x : string) : bool :=
  bool_decide (x ∈ xs).

(** [Array.prototype.join] on an array of strings. *)
Definition join (sep : string) (xs : list string) : string :=
  String.concat sep xs.

End Js.

(** ** Constructs *)

(** The tag manager, seen through its private field [tags]: for a manager
    of the framework, [Js.MapObj] of the tags the resource carries. *)
Record TagManager : Type := mkTagManager { tm_tags : Js.value }.

(** A CloudFormation resource: its type, the path of its node, and what
    [(resource as any).tags] evaluates to ([None] for [undefined]). *)
Record CfnResource : Type := mkCfnResource {
  cfnResourceType : string;
  node_path : string;
  res_tags : option TagManager
}.

Inductive IConstruct : Type :=
| Plain (path : string)
| Resource (r : CfnResource).

(** [node instanceof CfnResource]. *)
Definition instanceof_CfnResource (node : IConstruct) : bool :=
  match node with
  | Plain _ => false
  | Resource _ => true
  end.

(** ** Annotations *)

Inductive Level : Type := Warning | Error.

Record Annotation : Type := mkAnnotation {
  ann_path : string;
  ann_level : Level;
  ann_message : string
}.

Global Instance Level_eq_dec : EqDecision Level.
Proof. solve_decision. Defined.

Global Instance Annotation_eq_dec : EqDecision Annotation.
Proof. solve_decision. Defined.

(** ** DocumentationAspect *)

Record DocumentationAspectProps : Type := mkDocumentationAspectProps {
  props_requiredTags : list string;
  props_strict : option bool;
  props_excludeResourceTypes : option (list string)
}.

Record DocumentationAspect : Type := mkDocumentationAspect {
  requiredTags : list string;
  strict : bool;
  excludeResourceTypes : list string
}.

(** The constructor: [??] supplies the defaults. *)
Definition new_DocumentationAspect (props : DocumentationAspectProps)
  : DocumentationAspect :=
  {| requiredTags := props_requiredTags props;
     strict := default false (props_strict props);
     excludeResourceTypes := default [] (props_excludeResourceTypes props) |}.

Definition nonTaggableResources : list string :=
  [ "AWS::CloudFormation::Output";
    "AWS::CDK::Metadata";
    "Custom::CDKBucketDeployment" ].

(** A resource type is taggable when [visit] does not skip it as one of
    the [nonTaggableResources]. *)
Definition taggable (r : CfnResource) : bool :=
  negb (Js.includes nonTaggableResources (cfnResourceType r)).

Definition getResourceTags (resource : CfnResource) : option TagManager :=
  res_tags resource.

(** [hasTag]: [None] would be a thrown [TypeError]; the result is the
    value of [tagsField && Object.keys(tagsField).includes(tagKey)], so it
    is [tagsField] itself when that is falsy. *)
Definition hasTag (tags : option TagManager) (tagKey : string)
  : option Js.value :=
  match tags with
  | None => Some (Js.Bool false)
  | Some tm =>
      let tagsField := tm_tags tm in
      if Js.truthy tagsField
      then ks ← Js.keys tagsField; Some (Js.Bool (Js.includes ks tagKey))
      else Some tagsField
  end.

(** The loop of [visit] over [requiredTags], pushing onto [missingTags]. *)
Fixpoint collectMissing (tags : option TagManager) (required : list string)
    (missingTags : list string) : option (list string) :=
  match required with
  | [] => Some missingTags
  | requiredTag :: rest =>
      present ← hasTag tags requiredTag;
      collectMissing tags rest
        (if negb (Js.truthy present)
         then missingTags ++ [requiredTag]
         else missingTags)
  end.

Definition message_of (resourceId resourceType : string)
    (missingTags : list string) : string :=
  "Risorsa '" +:+ resourceId +:+ "' (" +:+ resourceType +:+
  ") manca dei seguenti tag di documentazione: " +:+
  Js.join ", " missingTags.

(** [visit], as a transformer of the annotation log. *)
Definition visit (this : DocumentationAspect) (node : IConstruct)
    (log : list Annotation) : option (list Annotation) :=
  match node with
  | Plain _ => Some log
  | Resource r =>
      if Js.includes (excludeResourceTypes this) (cfnResourceType r)
      then Some log
      else if Js.includes nonTaggableResources (cfnResourceType r)
      then Some log
      else
        let tags := getResourceTags r in
        missingTags ← collectMissing tags (requiredTags this) [];
        if bool_decide (0 < length missingTags)
        then
          let message :=
            message_of (node_path r) (cfnResourceType r) missingTags in
          Some (log ++ [mkAnnotation (node_path r)
                          (if strict this then Error else Warning)
                          message])
        else Some log
  end.

(** ** The aspect applied to a sequence of constructs *)

Fixpoint visitAll (this : DocumentationAspect) (nodes : list IConstruct)
    (log : list Annotation) : option (list Annotation) :=
  match nodes with
  | [] => Some log
  | node :: rest => log' ← visit this node log; visitAll this rest log'
  end.

(** ** ComplianceAspect *)

Record NagPackSuppression : Type := mkNagPackSuppression {
  sup_id : string;
  sup_reason : string
}.

Record ComplianceAspectProps : Type := mkComplianceAspectProps {
  cprops_strict : option bool;
  cprops_suppressions : option (list NagPackSuppression)
}.

(** The options handed to [AwsSolutionsChecks]. *)
Record NagPackProps : Type := mkNagPackProps {
  verbose : bool;
  logIgnores : bool
}.

(** The calls the constructor makes on the stack, in order. What the
    library does with them is outside this repository. *)
Inductive StackCall : Type :=
| AddAspect (checks : NagPackProps)
| AddStackSuppressions (suppressions : list NagPackSuppression).

(** [props?.strict ?? false]. *)
Definition strict_of (props : option ComplianceAspectProps) : bool :=
  default false (props ≫= cprops_strict).

Definition new_ComplianceAspect (props : option ComplianceAspectProps)
  : list StackCall :=
  AddAspect {| verbose := true; logIgnores := strict_of props |} ::
  match props ≫= cprops_suppressions with
  | Some suppressions =>
      if bool_decide (0 < length suppressions)
      then [AddStackSuppressions suppressions]
      else []
  | None => []
  end.

(** The options of the checks a constructor run registers. *)
Definition registered_checks (calls : list StackCall) : list NagPackProps :=
  omap (λ c, match c with AddAspect p => Some p | _ => None end) calls.

(** The application entry point: the properties it passes for a target
    environment. *)
Definition app_suppressions : list NagPackSuppression :=
  [ mkNagPackSuppression "AwsSolutions-S1"
      "Accessi di server log gestiti da policy IAM";
    mkNagPackSuppression "AwsSolutions-IAM5"
      "Policy con privilegi limitati per casi specifici";
    mkNagPackSuppression "AwsSolutions-CFR4"
      "Abbiamo configurato TLS_V1_2_2021 per tutte le distribuzioni CloudFront, ma questo avviso può persistere in alcuni casi con il viewer certificate predefinito";
    mkNagPackSuppression "AwsSolutions-CFR5"
      "Abbiamo configurato TLS_V1_2_2021 e HTTP/2 per le comunicazioni con S3, ma questo avviso può persistere con alcune configurazioni di origine";
    mkNagPackSuppression "AwsSolutions-L1"
      "Le funzioni Lambda sono configurate con i runtime appropriati per le esigenze del progetto" ].

Definition app_props (targetEnvironment : string) : ComplianceAspectProps :=
  {| cprops_strict := Some (bool_decide (targetEnvironment = "prod"));
     cprops_suppressions := Some app_suppressions |}.

(** ** What the aspect can see of the tags, and what the resource carries *)

(** The own enumerable properties of the [tags] field of the tag manager:
    all that [hasTag] can find. For a manager of the framework, whose field
    is a [Map], there is none, whatever tags the resource carries. *)
Definition ownFields (tags : option TagManager) : gmap string string :=
  match tags with
  | Some tm =>
      match tm_tags tm with
      | Js.Obj fields => fields
      | _ => ∅
      end
  | None => ∅
  end.

(** The tags the resource carries, the tag map of the node: the entries of
    the [Map] of its tag manager (the fields, were the manager to keep a
    plain object), and none without a manager. *)
Definition carriedTags (tags : option TagManager) : gmap string string :=
  match tags with
  | Some tm =>
      match tm_tags tm with
      | Js.MapObj entries => entries
      | Js.Obj fields => fields
      | _ => ∅
      end
  | None => ∅
  end.

(** The required keys [hasTag] does not find, in configuration order. *)
Definition unseenKeys (this : DocumentationAspect) (r : CfnResource)
  : list string :=
  filter (λ k, ownFields (getResourceTags r) !! k = None) (requiredTags this).

(** The required keys that are absent from the tags the resource carries,
    in configuration order. *)
Definition absentKeys (this : DocumentationAspect) (r : CfnResource)
  : list string :=
  filter (λ k, carriedTags (getResourceTags r) !! k = None)
    (requiredTags this).

(** The single annotation [visit] attaches to a resource. *)
Definition annotation_for (this : DocumentationAspect) (r : CfnResource)
    (missingTags : list string) : Annotation :=
  mkAnnotation (node_path r)
    (if strict this then Error else Warning)
    (message_of (node_path r) (cfnResourceType r) missingTags).

(** One Finding for every required key that is absent: the number of
    annotations [visit] attaches to a resource equals the number of absent
    required keys. *)
Definition one_finding_per_absent_key (this : DocumentationAspect)
    (r : CfnResource) : Prop :=
  ∃ out, visit this (Resource r) [] = Some out ∧
         length out = length (absentKeys this r).

(** ** Sample configurations and resources *)

Definition ownerPurpose : DocumentationAspect :=
  new_DocumentationAspect
    {| props_requiredTags := ["Owner"; "Purpose"];
       props_strict := None;
       props_excludeResourceTypes := None |}.

Definition untaggedBucket : CfnResource :=
  {| cfnResourceType := "AWS::S3::Bucket";
     node_path := "Stack/Bucket/Resource";
     res_tags := Some (mkTagManager (Js.Obj ∅)) |}.

(** A bucket tagged [Owner = team-x]: the tag is an entry of the [Map] of
    its tag manager. *)
Definition ownedBucket : CfnResource :=
  {| cfnResourceType := "AWS::S3::Bucket";
     node_path := "Stack/Bucket/Resource";
     res_tags := Some (mkTagManager (Js.MapObj {[ "Owner" := "team-x" ]})) |}.

(** A bucket tagged [Owner] with the empty string as value. *)
Definition blankOwnerBucket : CfnResource :=
  {| cfnResourceType := "AWS::S3::Bucket";
     node_path := "Stack/Bucket/Resource";
     res_tags :=
       Some (mkTagManager (Js.MapObj {[ "Owner" := EmptyString ]})) |}.

(** A bucket that carries every tag the sample aspect requires. *)
Definition fullyTaggedBucket : CfnResource :=
  {| cfnResourceType := "AWS::S3::Bucket";
     node_path := "Stack/Bucket/Resource";
     res_tags :=
       Some (mkTagManager
               (Js.MapObj (<[ "Owner" := "team-x" ]>
                             {[ "Purpose" := "Static website hosting" ]}))) |}.

(** The aspect that requires [Owner] alone. *)
Definition ownerOnly : DocumentationAspect :=
  new_DocumentationAspect
    {| props_requiredTags := ["Owner"];
       props_strict := None;
       props_excludeResourceTypes := None |}.

Definition stackOutput : CfnResource :=
  {| cfnResourceType := "AWS::CloudFormation::Output";
     node_path := "Stack/ApiEndpoint";
     res_tags := Some (mkTagManager (Js.Obj ∅)) |}.

Definition managerlessTable : CfnResource :=
  {| cfnResourceType := "AWS::DynamoDB::Table";
     node_path := "Stack/Events/Resource";
     res_tags := None |}.

(** ** What one visit reports *)

(** The annotations a visit of [node] adds: none for a construct that is
    not a resource, is excluded, is of a non-taggable type or shows every
    required key to [hasTag], and one otherwise. *)
Definition report (this : DocumentationAspect) (node : IConstruct)
  : list Annotation :=
  match node with
  | Plain _ => []
  | Resource r =>
      if Js.includes (excludeResourceTypes this) (cfnResourceType r)
         || Js.includes nonTaggableResources (cfnResourceType r)
      then []
      else match unseenKeys this r with
           | [] => []
           | _ :: _ => [annotation_for this r (unseenKeys this r)]
           end
  end.

(** The paths of the resources among the constructs visited, in order. *)
Definition resource_paths (nodes : list IConstruct) : list string :=
  omap (λ node, match node with
                | Resource r => Some (node_path r)
                | Plain _ => None
                end) nodes.

(** ** Defaults written with [||] *)

(** [x || d] for an optional string: [undefined] and the empty string are
    falsy. *)
Definition or_string (x : option string) (d : string) : string :=
  match x with
  | Some s => if bool_decide (s = EmptyString) then d else s
  | None => d
  end.

(** [x || d] for an optional whole number: [undefined] and [0] are
    falsy. *)
Definition or_number (x : option Z) (d : Z) : Z :=
  match x with
  | Some n => if bool_decide (n = 0%Z) then d else n
  | None => d
  end.

(** ** The stacks: what they hand to [cdk.Stack] and what they export *)

Record Environment : Type := mkEnvironment {
  env_account : option string;
  env_region : string
}.

Record StackProps : Type := mkStackProps {
  sp_env : option Environment;
  sp_description : option string
}.

(** [{ ...props, description: '...' }] in the constructor of
    [ProductionStack]: the later key wins. *)
Definition ProductionStack_superProps (props : option StackProps)
  : StackProps :=
  {| sp_env := props ≫= sp_env;
     sp_description := Some "Stack di produzione per il Summit Milan 2025" |}.

(** The same in [DevelopmentStack]. *)
Definition DevelopmentStack_superProps (props : option StackProps)
  : StackProps :=
  {| sp_env := props ≫= sp_env;
     sp_description := Some "Stack di sviluppo per il Summit Milan 2025" |}.

Record CfnOutput : Type := mkCfnOutput {
  out_id : string;
  out_description : string;
  out_value : string;
  out_exportName : string
}.

Record StackOutputs : Type := mkStackOutputs {
  o_apiEndpoint : string;
  o_frontendUrl : string;
  o_tableName : string;
  o_bucketName : string
}.

(** [exportOutputs], identical in both stacks. *)
Definition exportOutputs (appName environment : string)
    (outputs : StackOutputs) : list CfnOutput :=
  [ mkCfnOutput "ApiEndpointOutput" "URL dell'API Gateway"
      (o_apiEndpoint outputs)
      (appName +:+ "-api-endpoint-" +:+ environment);
    mkCfnOutput "FrontendUrlOutput" "URL del frontend"
      (o_frontendUrl outputs)
      (appName +:+ "-frontend-url-" +:+ environment);
    mkCfnOutput "WebsiteBucketNameOutput" "Nome del bucket S3 per il frontend"
      (o_bucketName outputs)
      (appName +:+ "-website-bucket-" +:+ environment);
    mkCfnOutput "DynamoDBTableNameOutput" "Nome della tabella DynamoDB"
      (o_tableName outputs)
      (appName +:+ "-dynamodb-table-" +:+ environment) ].

(** ** DatabaseConstruct *)

Inductive RemovalPolicy : Type := RETAIN | DESTROY.

Record DatabaseConstructProps : Type := mkDatabaseConstructProps {
  db_appName : string;
  db_environment : string;
  db_enablePointInTimeRecovery : option bool;
  db_preserveTableOnDelete : option bool;
  (** [Object.entries(props.tags)], when [tags] is given *)
  db_tags : option (list (string * string))
}.

(** The settings of the table that the constructor computes from its
    properties, and the tags it adds to the table, in order. *)
Record DatabaseConstruct : Type := mkDatabaseConstruct {
  tableName : string;
  table_removalPolicy : RemovalPolicy;
  (** [isProd || props.enablePointInTimeRecovery], possibly [undefined] *)
  pointInTimeRecovery : option bool;
  table_tags : list (string * string)
}.

Definition new_DatabaseConstruct (props : DatabaseConstructProps)
  : DatabaseConstruct :=
  let isProd := bool_decide (db_environment props = "prod") in
  {| tableName := db_appName props +:+ "-events-" +:+ db_environment props;
     table_removalPolicy :=
       if isProd || default false (db_preserveTableOnDelete props)
       then RETAIN else DESTROY;
     pointInTimeRecovery :=
       if isProd then Some true else db_enablePointInTimeRecovery props;
     table_tags :=
       [ ("Purpose", "Stores event data");
         ("DataClassification", "Non-sensitive");
         ("DataRetention", if isProd then "Retained" else "Temporary") ] ++
       match db_tags props with
       | Some entries => entries
       | None => []
       end |}.

(** ** BackendConstruct *)

Record LambdaConfig : Type := mkLambdaConfig {
  lc_memorySize : option Z;
  lc_timeout : option Z;
  lc_logLevel : option string
}.

Record ApiConfig (Cors : Type) : Type := mkApiConfig {
  ac_enableTracing : option bool;
  ac_cors : option Cors
}.
Arguments mkApiConfig {Cors} _ _.
Arguments ac_enableTracing {Cors} _.
Arguments ac_cors {Cors} _.

Record BackendConstructProps (Cors : Type) : Type := mkBackendConstructProps {
  be_appName : string;
  be_environment : string;
  (** [props.eventsTable.tableName] *)
  be_eventsTable_tableName : string;
  be_lambda : option LambdaConfig;
  be_api : option (ApiConfig Cors)
}.
Arguments mkBackendConstructProps {Cors} _ _ _ _ _.
Arguments be_appName {Cors} _.
Arguments be_environment {Cors} _.
Arguments be_eventsTable_tableName {Cors} _.
Arguments be_lambda {Cors} _.
Arguments be_api {Cors} _.

(** The arguments for the function and for the API that the constructor
    computes from its properties; [fn_timeout] is the number it passes to
    [cdk.Duration.seconds]. *)
Record BackendConstruct (Cors : Type) : Type := mkBackendConstruct {
  functionName : string;
  fn_TABLE_NAME : string;
  fn_ENVIRONMENT : string;
  fn_LOG_LEVEL : string;
  fn_timeout : Z;
  fn_memorySize : Z;
  restApiName : string;
  stageName : string;
  dataTraceEnabled : bool;
  defaultCorsPreflightOptions : Cors;
  endpointExportName : string
}.
Arguments mkBackendConstruct {Cors} _ _ _ _ _ _ _ _ _ _ _.
Arguments functionName {Cors} _.
Arguments fn_TABLE_NAME {Cors} _.
Arguments fn_ENVIRONMENT {Cors} _.
Arguments fn_LOG_LEVEL {Cors} _.
Arguments fn_timeout {Cors} _.
Arguments fn_memorySize {Cors} _.
Arguments restApiName {Cors} _.
Arguments stageName {Cors} _.
Arguments dataTraceEnabled {Cors} _.
Arguments defaultCorsPreflightOptions {Cors} _.
Arguments endpointExportName {Cors} _.

(** The constructor, up to the arguments it hands to [lambda.Function] and
    to [RestApi]. [pathExists] is the answer of [fs.existsSync] for the
    handler directory, and [None] is the constructor's own [throw new
    Error] when that answer is negative. [Some] carries the arguments as
    the constructor computes them; the library may still refuse them
    ([cdk.Duration.seconds] refuses a negative [fn_timeout]), which is not
    part of this definition. [allOrigins] is the object
    [{ allowOrigins: ALL_ORIGINS, allowMethods: ALL_METHODS }]. *)
Definition new_BackendConstruct {Cors : Type} (allOrigins : Cors)
    (pathExists : bool) (props : BackendConstructProps Cors)
  : option (BackendConstruct Cors) :=
  let isProd := bool_decide (be_environment props = "prod") in
  let lambdaConfig := default (mkLambdaConfig None None None) (be_lambda props) in
  let apiConfig := default (mkApiConfig None None) (be_api props) in
  if negb pathExists then None
  else Some
    {| functionName :=
         be_appName props +:+ "-event-handler-" +:+ be_environment props;
       fn_TABLE_NAME := be_eventsTable_tableName props;
       fn_ENVIRONMENT := be_environment props;
       fn_LOG_LEVEL :=
         or_string (lc_logLevel lambdaConfig)
           (if isProd then "INFO" else "DEBUG");
       fn_timeout := or_number (lc_timeout lambdaConfig) 30;
       fn_memorySize := or_number (lc_memorySize lambdaConfig) 256;
       restApiName := be_appName props +:+ "-api-" +:+ be_environment props;
       stageName := be_environment props;
       dataTraceEnabled :=
         match ac_enableTracing apiConfig with
         | Some enableTracing => enableTracing
         | None => negb isProd
         end;
       defaultCorsPreflightOptions := default allOrigins (ac_cors apiConfig);
       endpointExportName :=
         be_appName props +:+ "-api-endpoint-" +:+ be_environment props |}.

(** ** FrontendConstruct *)

Record S3Config : Type := mkS3Config {
  s3_autoDeleteObjects : option bool;
  s3_preserveBucketOnDelete : option bool
}.

Record CloudfrontConfig (Protocol : Type) : Type := mkCloudfrontConfig {
  cf_enableCompression : option bool;
  cf_enableLogging : option bool;
  cf_minimumProtocolVersion : option Protocol
}.
Arguments mkCloudfrontConfig {Protocol} _ _ _.
Arguments cf_enableCompression {Protocol} _.
Arguments cf_enableLogging {Protocol} _.
Arguments cf_minimumProtocolVersion {Protocol} _.

Record FrontendConstructProps (Protocol : Type) : Type :=
  mkFrontendConstructProps {
  fe_appName : string;
  fe_environment : string;
  fe_s3 : option S3Config;
  fe_cloudfront : option (CloudfrontConfig Protocol)
}.
Arguments mkFrontendConstructProps {Protocol} _ _ _ _.
Arguments fe_appName {Protocol} _.
Arguments fe_environment {Protocol} _.
Arguments fe_s3 {Protocol} _.
Arguments fe_cloudfront {Protocol} _.

(** The settings of the bucket and of the distribution that the
    constructor computes from its properties. *)
Record FrontendConstruct (Protocol : Type) : Type := mkFrontendConstruct {
  bucket_removalPolicy : RemovalPolicy;
  autoDeleteObjects : bool;
  compress : bool;
  minimumProtocolVersion : Protocol;
  enableLogging : bool;
  cachePolicyName : string;
  responseHeadersPolicyName : string
}.
Arguments mkFrontendConstruct {Protocol} _ _ _ _ _ _ _.
Arguments bucket_removalPolicy {Protocol} _.
Arguments autoDeleteObjects {Protocol} _.
Arguments compress {Protocol} _.
Arguments minimumProtocolVersion {Protocol} _.
Arguments enableLogging {Protocol} _.
Arguments cachePolicyName {Protocol} _.
Arguments responseHeadersPolicyName {Protocol} _.

(** The constructor; [TLS_V1_2_2021] is the member of
    [SecurityPolicyProtocol] it falls back to (every member is truthy). *)
Definition new_FrontendConstruct {Protocol : Type} (TLS_V1_2_2021 : Protocol)
    (props : FrontendConstructProps Protocol) : FrontendConstruct Protocol :=
  let isProd := bool_decide (fe_environment props = "prod") in
  let s3Config := default (mkS3Config None None) (fe_s3 props) in
  let cloudfrontConfig :=
    default (mkCloudfrontConfig None None None) (fe_cloudfront props) in
  {| bucket_removalPolicy :=
       if isProd || default false (s3_preserveBucketOnDelete s3Config)
       then RETAIN else DESTROY;
     autoDeleteObjects :=
       match s3_autoDeleteObjects s3Config with
       | Some autoDelete => autoDelete
       | None => negb isProd
       end;
     compress :=
       match cf_enableCompression cloudfrontConfig with
       | Some enableCompression => enableCompression
       | None => true
       end;
     minimumProtocolVersion :=
       default TLS_V1_2_2021 (cf_minimumProtocolVersion cloudfrontConfig);
     enableLogging :=
       match cf_enableLogging cloudfrontConfig with
       | Some logging => logging
       | None => true
       end;
     cachePolicyName :=
       fe_appName props +:+ "-secure-cache-policy-" +:+ fe_environment props;
     responseHeadersPolicyName :=
       fe_appName props +:+ "-security-headers-" +:+ fe_environment props |}.

(** ** The application entry point *)

Inductive StackClass : Type := ProductionStack | DevelopmentStack.

(** What the entry point sets up before [app.synth()]. *)
Record Application : Type := mkApplication {
  targetEnvironment : string;
  app_tags : list (string * string);
  app_stackClass : StackClass;
  app_stackId : string;
  app_stackProps : StackProps;
  app_compliance : list StackCall
}.

(** The entry point, as a function of [tryGetContext('environment')] and of
    the two environment variables it reads. *)
Definition main (context_environment CDK_DEFAULT_ACCOUNT
    CDK_DEFAULT_REGION : option string) : Application :=
  let targetEnvironment := or_string context_environment "dev" in
  let awsAccount := CDK_DEFAULT_ACCOUNT in
  let awsRegion := or_string CDK_DEFAULT_REGION "eu-west-1" in
  let env := {| env_account := awsAccount; env_region := awsRegion |} in
  let isProd := bool_decide (targetEnvironment = "prod") in
  {| targetEnvironment := targetEnvironment;
     app_tags :=
       [ ("Presentation", "IaC: From Keyboard to Cloud");
         ("Presenter", "Summit Milan Team");
         ("Repository",
          "https://github.com/pasqualemazzei/summit-milan-2025") ];
     app_stackClass := if isProd then ProductionStack else DevelopmentStack;
     app_stackId :=
       if isProd then "SummitMilan2025ProdStack"
       else "SummitMilan2025DevStack";
     app_stackProps :=
       {| sp_env := Some env;
          sp_description :=
            Some ((if isProd
                   then "Stack di produzione per il Summit Milan 2025 - Ambiente: "
                   else "Stack di sviluppo per il Summit Milan 2025 - Ambiente: ")
                  +:+ targetEnvironment) |};
     app_compliance := new_ComplianceAspect (Some (app_props targetEnvironment)) |}.

(** The properties that reach [cdk.Stack] for the stack the entry point
    creates. *)
Definition stack_superProps (app : Application) : StackProps :=
  match app_stackClass app with
  | ProductionStack => ProductionStack_superProps (Some (app_stackProps app))
  | DevelopmentStack => DevelopmentStack_superProps (Some (app_stackProps app))
  end.

(** * Properties *)

Section JsFacts.

Lemma includes_true xs x : Js.includes xs x = true ↔ x ∈ xs.
Proof. unfold Js.includes. apply bool_decide_eq_true. Qed.

Lemma includes_false xs x : Js.includes xs x = false ↔ x ∉ xs.
Proof. unfold Js.includes. apply bool_decide_eq_false. Qed.

Lemma own_keys_lookup (fields : gmap string string) k :
  k ∈ (map_to_list fields).*1 ↔ is_Some (fields !! k).
Proof.
  rewrite list_elem_of_fmap. split.
  - intros [[k' v] [-> Hin]]. apply elem_of_map_to_list in Hin. by exists v.
  - intros [v Hv]. exists (k, v). split; [done|].
    by apply elem_of_map_to_list.
Qed.

Lemma includes_own_keys (fields : gmap string string) k :
  Js.includes (map_to_list fields).*1 k = bool_decide (is_Some (fields !! k)).
Proof. unfold Js.includes. apply bool_decide_ext, own_keys_lookup. Qed.

End JsFacts.

Section HasTag.

(** [hasTag] never throws, and its truthiness is membership of the key in
    the own properties of the [tags] field. *)
Lemma hasTag_spec tags k :
  ∃ v, hasTag tags k = Some v ∧
       Js.truthy v = bool_decide (is_Some (ownFields tags !! k)).
Proof.
  destruct tags as [[field]|]; cbn.
  - destruct field as [| |b|fields|entries]; cbn.
    + eexists; split; [done|]. cbn. by rewrite lookup_empty.
    + eexists; split; [done|]. cbn. by rewrite lookup_empty.
    + destruct b; cbn; eexists; (split; [done|]); cbn;
        by rewrite lookup_empty.
    + eexists; split; [done|]. cbn. apply includes_own_keys.
    + eexists; split; [done|]. cbn. by rewrite lookup_empty.
  - eexists; split; [done|]. cbn. by rewrite lookup_empty.
Qed.

Lemma collectMissing_spec tags required acc :
  collectMissing tags required acc =
  Some (acc ++ filter (λ k, ownFields tags !! k = None) required).
Proof.
  revert acc. induction required as [|k rest IH]; intros acc.
  - cbn. by rewrite app_nil_r.
  - cbn [collectMissing]. destruct (hasTag_spec tags k) as (v & -> & Hv).
    cbn [mbind option_bind]. rewrite IH, Hv, filter_cons.
    destruct (ownFields tags !! k) as [x|] eqn:Hk.
    + rewrite bool_decide_eq_true_2 by eauto. cbn [negb].
      by rewrite decide_False by done.
    + rewrite bool_decide_eq_false_2 by (intros [? ?]; done). cbn [negb].
      rewrite decide_True by done. by rewrite <- app_assoc.
Qed.

(** What [visit] does on a resource that is neither excluded nor of a
    non-taggable type. *)
Lemma visit_in_scope this r log :
  Js.includes (excludeResourceTypes this) (cfnResourceType r) = false →
  Js.includes nonTaggableResources (cfnResourceType r) = false →
  visit this (Resource r) log =
  Some (match unseenKeys this r with
        | [] => log
        | _ :: _ => log ++ [annotation_for this r (unseenKeys this r)]
        end).
Proof.
  intros Hex Hnt. unfold visit. rewrite Hex, Hnt.
  rewrite collectMissing_spec. cbn. fold (unseenKeys this r).
  destruct (unseenKeys this r) as [|k ks]; cbn; [done|].
  rewrite bool_decide_eq_true_2 by lia. done.
Qed.

(** What [hasTag] finds is carried: a key absent from the tags of the
    resource is never found. *)
Lemma ownFields_carried tags k :
  carriedTags tags !! k = None → ownFields tags !! k = None.
Proof.
  destruct tags as [[field]|]; cbn; [|done].
  by destruct field; cbn; rewrite ?lookup_empty.
Qed.

Lemma filter_sublist_impl {A} (P Q : A → Prop)
    `{!∀ x, Decision (P x)} `{!∀ x, Decision (Q x)} (l : list A) :
  (∀ x, P x → Q x) → filter P l `sublist_of` filter Q l.
Proof.
  intros HPQ. induction l as [|x l IH]; [done|].
  rewrite !filter_cons. destruct (decide (P x)) as [HP|HP].
  - rewrite decide_True by auto. by apply sublist_skip.
  - destruct (decide (Q x)); [by apply sublist_cons|done].
Qed.

Lemma absentKeys_unseen this r :
  absentKeys this r `sublist_of` unseenKeys this r.
Proof.
  apply filter_sublist_impl. intros k. apply ownFields_carried.
Qed.

End HasTag.

(** ** The documentation aspect *)

(** C1 (as amended). On a resource that is taggable and not excluded, the
    loop of [visit] collects required keys once per configured entry and in
    configuration order, and every required key that is absent from the
    tags of the resource (exact key match) is among the keys collected.
    When at least one key is collected the resource receives ONE
    annotation, whose message lists all the keys collected, joined by a
    comma, and none otherwise; so a resource that lacks a required key is
    annotated exactly once. *)
Theorem absent_keys_reported_in_one_annotation this r log :
  taggable r = true →
  Js.includes (excludeResourceTypes this) (cfnResourceType r) = false →
  ∃ collected,
    collectMissing (getResourceTags r) (requiredTags this) [] =
      Some collected ∧
    collected `sublist_of` requiredTags this ∧
    absentKeys this r `sublist_of` collected ∧
    (absentKeys this r ≠ [] → collected ≠ []) ∧
    visit this (Resource r) log =
      Some (match collected with
            | [] => log
            | _ :: _ =>
                log ++ [mkAnnotation (node_path r)
                          (if strict this then Error else Warning)
                          (message_of (node_path r) (cfnResourceType r)
                             collected)]
            end).
Proof.
  intros Htag Hex. exists (unseenKeys this r).
  split; [by rewrite collectMissing_spec|].
  split; [apply sublist_filter|].
  split; [apply absentKeys_unseen|].
  split.
  - intros Hne Hnil. pose proof (absentKeys_unseen this r) as Hsub.
    rewrite Hnil in Hsub. by apply sublist_nil_r in Hsub.
  - apply visit_in_scope; [done|].
    unfold taggable in Htag. by apply negb_true_iff in Htag.
Qed.

Lemma absent_keys_reported_in_one_annotation_witness :
  taggable ownedBucket = true ∧
  Js.includes (excludeResourceTypes ownerPurpose)
    (cfnResourceType ownedBucket) = false ∧
  absentKeys ownerPurpose ownedBucket = ["Purpose"] ∧
  ∃ collected,
    collectMissing (getResourceTags ownedBucket)
      (requiredTags ownerPurpose) [] = Some collected ∧
    collected `sublist_of` requiredTags ownerPurpose ∧
    absentKeys ownerPurpose ownedBucket `sublist_of` collected ∧
    (absentKeys ownerPurpose ownedBucket ≠ [] → collected ≠ []) ∧
    visit ownerPurpose (Resource ownedBucket) [] =
      Some (match collected with
            | [] => []
            | _ :: _ =>
                [] ++ [mkAnnotation (node_path ownedBucket)
                         (if strict ownerPurpose then Error else Warning)
                         (message_of (node_path ownedBucket)
                            (cfnResourceType ownedBucket) collected)]
            end).
Proof.
  split; [reflexivity|]. split; [reflexivity|].
  split; [vm_compute; reflexivity|].
  apply (absent_keys_reported_in_one_annotation ownerPurpose ownedBucket []);
    reflexivity.
Defined.

(** C1 (as stated) fails: a bucket without tags lacks both required keys,
    yet [visit] attaches a single annotation, not one per key. *)
Lemma two_absent_keys_one_annotation :
  absentKeys ownerPurpose untaggedBucket = ["Owner"; "Purpose"] ∧
  visit ownerPurpose (Resource untaggedBucket) [] =
    Some [mkAnnotation "Stack/Bucket/Resource" Warning
            "Risorsa 'Stack/Bucket/Resource' (AWS::S3::Bucket) manca dei seguenti tag di documentazione: Owner, Purpose"] ∧
  ¬ one_finding_per_absent_key ownerPurpose untaggedBucket.
Proof.
  assert (Hk : absentKeys ownerPurpose untaggedBucket = ["Owner"; "Purpose"])
    by (vm_compute; reflexivity).
  assert (Hv : visit ownerPurpose (Resource untaggedBucket) [] =
    Some [mkAnnotation "Stack/Bucket/Resource" Warning
            "Risorsa 'Stack/Bucket/Resource' (AWS::S3::Bucket) manca dei seguenti tag di documentazione: Owner, Purpose"])
    by (vm_compute; reflexivity).
  split; [done|]. split; [done|].
  intros (out & Hout & Hlen). rewrite Hv in Hout. rewrite Hk in Hlen.
  injection Hout as <-. discriminate Hlen.
Qed.

(** C2. For a fixed node, a fixed list of required tags and a fixed exclusion
    list, the aspect built with [strict: true] and the one built with
    [strict: false] (or with [strict] left out) attach annotations with the
    same messages at the same paths; every one of them is an error in the
    former and a warning in the latter. The aspect has no finding that is
    forced to be an error. *)
Theorem strict_changes_only_the_level required excluded node log :
  let aspect s :=
    new_DocumentationAspect (mkDocumentationAspectProps required s excluded) in
  ∃ outStrict outLenient,
    visit (aspect (Some true)) node log = Some (log ++ outStrict) ∧
    visit (aspect (Some false)) node log = Some (log ++ outLenient) ∧
    visit (aspect None) node log = Some (log ++ outLenient) ∧
    ann_message <$> outStrict = ann_message <$> outLenient ∧
    ann_path <$> outStrict = ann_path <$> outLenient ∧
    Forall (λ a, ann_level a = Error) outStrict ∧
    Forall (λ a, ann_level a = Warning) outLenient.
Proof.
  intros aspect. destruct node as [p|r].
  - exists [], []. cbn. rewrite app_nil_r. by repeat split.
  - destruct (Js.includes (default [] excluded) (cfnResourceType r)) eqn:Hex;
      [|destruct (Js.includes nonTaggableResources (cfnResourceType r))
          eqn:Hnt].
    + exists [], []. cbn. rewrite Hex, app_nil_r. by repeat split.
    + exists [], []. cbn. rewrite Hex, Hnt, app_nil_r. by repeat split.
    + rewrite !visit_in_scope by done.
      change (unseenKeys (aspect (Some true)) r)
        with (unseenKeys (aspect None) r).
      change (unseenKeys (aspect (Some false)) r)
        with (unseenKeys (aspect None) r).
      destruct (unseenKeys (aspect None) r) as [|k ks].
      * exists [], []. rewrite app_nil_r. by repeat split.
      * exists [annotation_for (aspect (Some true)) r (k :: ks)],
               [annotation_for (aspect None) r (k :: ks)].
        repeat split; try done; by repeat constructor.
Qed.

(** C3. A resource of a non-taggable type, or of a type in the exclusion
    list of the aspect, leaves the annotation log as it was, whatever its
    tags and whatever tags are required. *)
Theorem out_of_scope_resource_is_silent this r log :
  taggable r = false ∨
  Js.includes (excludeResourceTypes this) (cfnResourceType r) = true →
  visit this (Resource r) log = Some log.
Proof.
  intros [Htag|Hex]; cbn.
  - unfold taggable in Htag. apply negb_false_iff in Htag. rewrite Htag.
    by destruct (Js.includes (excludeResourceTypes this) (cfnResourceType r)).
  - by rewrite Hex.
Qed.

Lemma out_of_scope_resource_is_silent_witness :
  (taggable stackOutput = false ∨
   Js.includes (excludeResourceTypes ownerPurpose)
     (cfnResourceType stackOutput) = true) ∧
  carriedTags (getResourceTags stackOutput) = ∅ ∧
  requiredTags ownerPurpose = ["Owner"; "Purpose"] ∧
  visit ownerPurpose (Resource stackOutput) [] = Some [].
Proof.
  split; [left; reflexivity|]. split; [reflexivity|]. split; [reflexivity|].
  apply (out_of_scope_resource_is_silent ownerPurpose stackOutput []).
  left; reflexivity.
Defined.

(** C4 (what the code does). [hasTag] looks for the key among the own
    properties of the [tags] field of the tag manager. That field is a
    [Map], which has none, so the answer is [false] for every key, also
    for a key the resource carries, whatever its value. A bucket tagged
    [Owner] with the empty string is reported as lacking [Owner]. *)
Theorem carried_key_is_reported_missing :
  carriedTags (getResourceTags blankOwnerBucket) !! "Owner" =
    Some EmptyString ∧
  hasTag (getResourceTags blankOwnerBucket) "Owner" = Some (Js.Bool false) ∧
  collectMissing (getResourceTags blankOwnerBucket)
    (requiredTags ownerOnly) [] = Some ["Owner"] ∧
  visit ownerOnly (Resource blankOwnerBucket) [] =
    Some [mkAnnotation "Stack/Bucket/Resource" Warning
            "Risorsa 'Stack/Bucket/Resource' (AWS::S3::Bucket) manca dei seguenti tag di documentazione: Owner"] ∧
  ∀ (entries : gmap string string) k,
    hasTag (Some (mkTagManager (Js.MapObj entries))) k = Some (Js.Bool false).
Proof.
  split; [vm_compute; reflexivity|].
  split; [reflexivity|].
  split; [reflexivity|].
  split; [vm_compute; reflexivity|].
  intros entries k. reflexivity.
Qed.

(** C9. A construct that is not a CloudFormation resource is left alone:
    [visit] returns at once with the annotation log unchanged, whatever
    the aspect requires. *)
Theorem non_resource_is_ignored this node log :
  instanceof_CfnResource node = false →
  visit this node log = Some log.
Proof. destruct node; [done|discriminate]. Qed.

Lemma non_resource_is_ignored_witness :
  instanceof_CfnResource (Plain "Stack/Backend") = false ∧
  visit ownerPurpose (Plain "Stack/Backend") [] = Some [].
Proof.
  split; [reflexivity|].
  apply (non_resource_is_ignored ownerPurpose (Plain "Stack/Backend") []).
  reflexivity.
Defined.

(** C10. On a taggable, non-excluded resource without a tag manager, or
    whose tag manager has a falsy [tags] field, [hasTag] returns normally
    with a falsy answer for every key (the literal [false] when the manager
    is absent); every required tag is therefore collected as missing, and
    reported as soon as there is one. *)
Theorem missing_manager_reports_every_tag this r log :
  taggable r = true →
  Js.includes (excludeResourceTypes this) (cfnResourceType r) = false →
  getResourceTags r = None ∨
  (∃ tm, getResourceTags r = Some tm ∧ Js.truthy (tm_tags tm) = false) →
  (∀ k, ∃ answer,
     hasTag (getResourceTags r) k = Some answer ∧
     Js.truthy answer = false ∧
     (getResourceTags r = None → answer = Js.Bool false)) ∧
  collectMissing (getResourceTags r) (requiredTags this) [] =
    Some (requiredTags this) ∧
  visit this (Resource r) log =
    Some (match requiredTags this with
          | [] => log
          | _ :: _ => log ++ [annotation_for this r (requiredTags this)]
          end).
Proof.
  intros Htag Hex Hfalsy.
  assert (Hempty : ownFields (getResourceTags r) = ∅).
  { destruct Hfalsy as [->|(tm & -> & Htm)]; [done|].
    cbn. by destruct (tm_tags tm). }
  assert (Hall : unseenKeys this r = requiredTags this).
  { unfold unseenKeys. rewrite Hempty.
    induction (requiredTags this) as [|k ks IH]; [done|].
    rewrite filter_cons, decide_True by apply lookup_empty. by rewrite IH. }
  split; [|split].
  - intros k. destruct Hfalsy as [Hnone|(tm & Hsome & Htm)].
    + rewrite Hnone. by eexists.
    + rewrite Hsome. cbn. rewrite Htm. eexists. by repeat split.
  - rewrite collectMissing_spec. cbn. by fold (unseenKeys this r); rewrite Hall.
  - rewrite visit_in_scope, Hall; [done..|].
    unfold taggable in Htag. by apply negb_true_iff in Htag.
Qed.

Lemma missing_manager_reports_every_tag_witness :
  taggable managerlessTable = true ∧
  Js.includes (excludeResourceTypes ownerPurpose)
    (cfnResourceType managerlessTable) = false ∧
  (getResourceTags managerlessTable = None ∨
   ∃ tm, getResourceTags managerlessTable = Some tm ∧
         Js.truthy (tm_tags tm) = false) ∧
  (∀ k, ∃ answer,
     hasTag (getResourceTags managerlessTable) k = Some answer ∧
     Js.truthy answer = false ∧
     (getResourceTags managerlessTable = None → answer = Js.Bool false)) ∧
  collectMissing (getResourceTags managerlessTable)
    (requiredTags ownerPurpose) [] = Some (requiredTags ownerPurpose) ∧
  visit ownerPurpose (Resource managerlessTable) [] =
    Some (match requiredTags ownerPurpose with
          | [] => []
          | _ :: _ =>
              [] ++ [annotation_for ownerPurpose managerlessTable
                       (requiredTags ownerPurpose)]
          end).
Proof.
  split; [reflexivity|]. split; [reflexivity|]. split; [left; reflexivity|].
  apply (missing_manager_reports_every_tag ownerPurpose managerlessTable []);
    [reflexivity|reflexivity|left; reflexivity].
Defined.

(** ** The compliance aspect *)

(** The suppressions handed to the constructor reach the stack as they
    are, in one call, unless there is none. *)
Lemma suppressions_are_forwarded s sups :
  new_ComplianceAspect (Some (mkComplianceAspectProps s (Some sups))) =
  AddAspect {| verbose := true; logIgnores := default false s |} ::
  match sups with
  | [] => []
  | _ :: _ => [AddStackSuppressions sups]
  end.
Proof. by destruct sups. Qed.

(** C7 (what the code does). The constructor registers one set of checks
    whose [verbose] option is always on and whose [logIgnores] option, the
    one that decides whether suppressed findings are logged, is the
    [strict] property itself; the property has no other use. Turning
    [strict] on therefore turns the logging of suppressed findings on. *)
Theorem strict_is_passed_as_logIgnores s sups :
  registered_checks
    (new_ComplianceAspect (Some (mkComplianceAspectProps (Some s) sups))) =
    [ {| verbose := true; logIgnores := s |} ] ∧
  registered_checks (new_ComplianceAspect (Some (app_props "prod"))) =
    [ {| verbose := true; logIgnores := true |} ] ∧
  registered_checks (new_ComplianceAspect (Some (app_props "dev"))) =
    [ {| verbose := true; logIgnores := false |} ].
Proof.
  split; [|split; reflexivity].
  unfold new_ComplianceAspect, registered_checks. cbn.
  destruct sups as [[|x xs]|]; reflexivity.
Qed.


(** * Further properties of the documentation aspect *)

Section Reports.

Lemma visit_report this node log :
  visit this node log = Some (log ++ report this node).
Proof.
  destruct node as [p|r]; cbn [report].
  - cbn. by rewrite app_nil_r.
  - destruct (Js.includes (excludeResourceTypes this) (cfnResourceType r))
      eqn:Hex; cbn [orb].
    { cbn. by rewrite Hex, app_nil_r. }
    destruct (Js.includes nonTaggableResources (cfnResourceType r)) eqn:Hnt.
    { cbn. by rewrite Hex, Hnt, app_nil_r. }
    rewrite visit_in_scope by done.
    destruct (unseenKeys this r); [by rewrite app_nil_r|done].
Qed.

Lemma visitAll_report this nodes log :
  visitAll this nodes log = Some (log ++ flat_map (report this) nodes).
Proof.
  revert log. induction nodes as [|node rest IH]; intros log; cbn.
  - by rewrite app_nil_r.
  - rewrite visit_report. cbn. by rewrite IH, app_assoc.
Qed.

End Reports.

(** X1. A resource whose tag manager is one of the framework, with its
    tags in a [Map], is treated as if it carried no tag: when it is taggable
    and not excluded every required key is collected, and it is annotated
    with the full list as soon as one tag is required, also when it carries
    every required tag. *)
Theorem carried_tags_are_not_seen this r entries log :
  getResourceTags r = Some (mkTagManager (Js.MapObj entries)) →
  taggable r = true →
  Js.includes (excludeResourceTypes this) (cfnResourceType r) = false →
  collectMissing (getResourceTags r) (requiredTags this) [] =
    Some (requiredTags this) ∧
  visit this (Resource r) log =
    Some (match requiredTags this with
          | [] => log
          | _ :: _ => log ++ [annotation_for this r (requiredTags this)]
          end).
Proof.
  intros Htags Htag Hex.
  assert (Hall : unseenKeys this r = requiredTags this).
  { unfold unseenKeys. rewrite Htags. cbn [ownFields tm_tags].
    induction (requiredTags this) as [|k ks IH]; [done|].
    rewrite filter_cons, decide_True by apply lookup_empty. by rewrite IH. }
  split.
  - rewrite collectMissing_spec. cbn [app].
    by fold (unseenKeys this r); rewrite Hall.
  - rewrite visit_in_scope, Hall; [done..|].
    unfold taggable in Htag. by apply negb_true_iff in Htag.
Qed.

Lemma carried_tags_are_not_seen_witness :
  getResourceTags fullyTaggedBucket =
    Some (mkTagManager
            (Js.MapObj (<[ "Owner" := "team-x" ]>
                          {[ "Purpose" := "Static website hosting" ]}))) ∧
  taggable fullyTaggedBucket = true ∧
  Js.includes (excludeResourceTypes ownerPurpose)
    (cfnResourceType fullyTaggedBucket) = false ∧
  absentKeys ownerPurpose fullyTaggedBucket = [] ∧
  collectMissing (getResourceTags fullyTaggedBucket)
    (requiredTags ownerPurpose) [] = Some (requiredTags ownerPurpose) ∧
  visit ownerPurpose (Resource fullyTaggedBucket) [] =
    Some (match requiredTags ownerPurpose with
          | [] => []
          | _ :: _ =>
              [] ++ [annotation_for ownerPurpose fullyTaggedBucket
                       (requiredTags ownerPurpose)]
          end).
Proof.
  split; [reflexivity|]. split; [reflexivity|]. split; [reflexivity|].
  split; [vm_compute; reflexivity|].
  apply (carried_tags_are_not_seen ownerPurpose fullyTaggedBucket
           (<[ "Owner" := "team-x" ]>
              {[ "Purpose" := "Static website hosting" ]}) []);
    reflexivity.
Defined.

(** X2. A visit never throws, keeps the annotations already there, and adds
    at most one; the one it adds sits at the path of the resource visited,
    has the level fixed by [strict], and carries the message built from
    the keys the loop collected, of which there is at least one. *)
Theorem visit_adds_at_most_one this node log :
  ∃ added,
    visit this node log = Some (log ++ added) ∧
    length added ≤ 1 ∧
    ∀ a, a ∈ added →
      ∃ r collected,
        node = Resource r ∧
        collectMissing (getResourceTags r) (requiredTags this) [] =
          Some collected ∧
        collected ≠ [] ∧
        ann_path a = node_path r ∧
        ann_level a = (if strict this then Error else Warning) ∧
        ann_message a =
          message_of (node_path r) (cfnResourceType r) collected.
Proof.
  exists (report this node). split; [apply visit_report|].
  destruct node as [p|r]; cbn [report].
  - split; [cbn; lia|]. intros a Ha. by apply elem_of_nil in Ha.
  - destruct (_ || _).
    { split; [cbn; lia|]. intros a Ha. by apply elem_of_nil in Ha. }
    destruct (unseenKeys this r) as [|k ks] eqn:Hab.
    { split; [cbn; lia|]. intros a Ha. by apply elem_of_nil in Ha. }
    split; [cbn; lia|]. intros a Ha. apply list_elem_of_singleton in Ha as ->.
    exists r, (k :: ks). split; [done|].
    split; [rewrite collectMissing_spec; cbn [app];
            by fold (unseenKeys this r); rewrite Hab|].
    by repeat split.
Qed.

(** X3. Over any sequence of constructs the annotations come out in visit
    order, at most one per resource: their paths form a subsequence of the
    paths of the resources visited. *)
Theorem annotations_follow_visit_order this nodes log :
  ∃ added,
    visitAll this nodes log = Some (log ++ added) ∧
    ann_path <$> added `sublist_of` resource_paths nodes.
Proof.
  exists (flat_map (report this) nodes). split; [apply visitAll_report|].
  induction nodes as [|node rest IH]; [done|].
  cbn [flat_map]. rewrite fmap_app.
  destruct node as [p|r]; cbn [report resource_paths omap].
  - exact IH.
  - change (omap _ rest) with (resource_paths rest).
    destruct (_ || _); cbn; [by apply sublist_cons|].
    destruct (unseenKeys this r); cbn; [by apply sublist_cons|].
    by apply sublist_skip.
Qed.

(** X14. All the annotations of one run have the same level: errors when
    the aspect is strict, warnings otherwise; a lenient aspect never adds
    an error, whatever the constructs and their tags. *)
Theorem run_level_is_uniform this nodes log :
  ∃ added,
    visitAll this nodes log = Some (log ++ added) ∧
    Forall (λ a, ann_level a = if strict this then Error else Warning) added.
Proof.
  exists (flat_map (report this) nodes). split; [apply visitAll_report|].
  induction nodes as [|node rest IH]; [by apply Forall_nil|].
  cbn [flat_map]. apply Forall_app. split; [|exact IH].
  destruct node as [p|r]; cbn [report]; [by apply Forall_nil|].
  destruct (_ || _); [by apply Forall_nil|].
  destruct (unseenKeys this r); [by apply Forall_nil|].
  by apply Forall_singleton.
Qed.

Section Monotonicity.

Lemma report_excluding_more required s excl excl' node :
  excl ⊆ excl' →
  report (mkDocumentationAspect required s excl') node
    `sublist_of` report (mkDocumentationAspect required s excl) node.
Proof.
  intros Hsub. destruct node as [p|r]; cbn [report]; [done|].
  cbn [excludeResourceTypes].
  destruct (Js.includes excl (cfnResourceType r)) eqn:Hex.
  - apply includes_true in Hex. apply Hsub in Hex.
    apply includes_true in Hex. by rewrite Hex.
  - cbn [orb]. destruct (Js.includes excl' (cfnResourceType r)); cbn [orb].
    + apply sublist_nil_l.
    + done.
Qed.

End Monotonicity.

(** X4. Excluding more resource types can only take annotations away: with
    a larger exclusion list the annotations of a run are a subsequence of
    those of the run with the smaller list. *)
Theorem excluding_more_reports_less required s excl excl' nodes :
  excl ⊆ excl' →
  ∃ out out',
    visitAll (mkDocumentationAspect required s excl) nodes [] = Some out ∧
    visitAll (mkDocumentationAspect required s excl') nodes [] = Some out' ∧
    out' `sublist_of` out.
Proof.
  intros Hsub. do 2 eexists.
  split; [apply visitAll_report|]. split; [apply visitAll_report|].
  cbn [app]. induction nodes as [|node rest IH]; [done|].
  cbn [flat_map]. apply sublist_app; [|exact IH].
  by apply report_excluding_more.
Qed.

Lemma excluding_more_reports_less_witness :
  ([] : list string) ⊆ ["AWS::S3::Bucket"] ∧
  ∃ out out',
    visitAll (mkDocumentationAspect ["Owner"; "Purpose"] false [])
      [Resource untaggedBucket; Resource managerlessTable] [] = Some out ∧
    visitAll (mkDocumentationAspect ["Owner"; "Purpose"] false
                ["AWS::S3::Bucket"])
      [Resource untaggedBucket; Resource managerlessTable] [] = Some out' ∧
    out' `sublist_of` out.
Proof.
  split; [apply list_subseteq_nil|].
  apply (excluding_more_reports_less ["Owner"; "Purpose"] false []
           ["AWS::S3::Bucket"]
           [Resource untaggedBucket; Resource managerlessTable]).
  apply list_subseteq_nil.
Defined.

(** X5. The keys collected for a list of required tags followed by another
    are those collected for the first followed by those collected for the
    second: requiring more tags never removes a key from the report. *)
Theorem collectMissing_app tags required1 required2 :
  ∃ missing1 missing2,
    collectMissing tags required1 [] = Some missing1 ∧
    collectMissing tags required2 [] = Some missing2 ∧
    collectMissing tags (required1 ++ required2) [] =
      Some (missing1 ++ missing2).
Proof.
  do 2 eexists. rewrite !collectMissing_spec. cbn [app].
  split; [done|]. split; [done|]. by rewrite filter_app.
Qed.

(** X7. The visit of a resource depends on its tag manager through the
    own keys of the [tags] field only: two resources of the same type at
    the same path that show [hasTag] the same keys are treated alike,
    whatever the values, whatever tags they carry and whether or not a tag
    manager is there at all. *)
Theorem visit_depends_on_keys_only this r1 r2 log :
  cfnResourceType r1 = cfnResourceType r2 →
  node_path r1 = node_path r2 →
  dom (ownFields (getResourceTags r1)) = dom (ownFields (getResourceTags r2)) →
  visit this (Resource r1) log = visit this (Resource r2) log.
Proof.
  intros Hty Hpath Hdom. rewrite !visit_report. cbn [report].
  assert (Hab : unseenKeys this r1 = unseenKeys this r2).
  { unfold unseenKeys. apply list_filter_iff. intros k.
    rewrite <- !not_elem_of_dom. by rewrite Hdom. }
  unfold annotation_for. by rewrite Hty, Hpath, Hab.
Qed.

Lemma visit_depends_on_keys_only_witness :
  cfnResourceType ownedBucket = cfnResourceType blankOwnerBucket ∧
  node_path ownedBucket = node_path blankOwnerBucket ∧
  dom (ownFields (getResourceTags ownedBucket)) =
    dom (ownFields (getResourceTags blankOwnerBucket)) ∧
  visit ownerPurpose (Resource ownedBucket) [] =
    visit ownerPurpose (Resource blankOwnerBucket) [].
Proof.
  assert (Hdom : dom (ownFields (getResourceTags ownedBucket)) =
                 dom (ownFields (getResourceTags blankOwnerBucket)))
    by reflexivity.
  split; [reflexivity|]. split; [reflexivity|]. split; [exact Hdom|].
  apply (visit_depends_on_keys_only ownerPurpose ownedBucket
           blankOwnerBucket []); [reflexivity|reflexivity|exact Hdom].
Defined.

(** * Further properties of the compliance aspect *)

(** X8. The constructor first registers the checks and then makes at most
    one call that registers suppressions: it makes that call exactly when
    the properties carry a non-empty array of suppressions, and passes the
    array on as it is. Without properties, without suppressions or with an
    empty array no suppression is registered. *)
Theorem stack_suppressions_call props :
  (∃ checks rest,
     new_ComplianceAspect props = AddAspect checks :: rest ∧
     length rest ≤ 1) ∧
  ∀ sups,
    AddStackSuppressions sups ∈ new_ComplianceAspect props ↔
    props ≫= cprops_suppressions = Some sups ∧ sups ≠ [].
Proof.
  unfold new_ComplianceAspect.
  destruct (props ≫= cprops_suppressions) as [[|x xs]|].
  - rewrite bool_decide_eq_false_2 by (cbn; lia).
    split; [eexists _, []; split; [done|cbn; lia]|]. intros sups. split.
    + intros Hin. apply list_elem_of_singleton in Hin. discriminate.
    + intros [[= <-] Hne]. done.
  - rewrite bool_decide_eq_true_2 by (cbn; lia).
    split; [eexists _, [_]; split; [done|cbn; lia]|]. intros sups. split.
    + intros Hin. apply elem_of_cons in Hin as [Hin|Hin]; [discriminate|].
      apply list_elem_of_singleton in Hin. injection Hin as ->.
      split; [reflexivity|done].
    + intros [[= <-] _]. apply elem_of_cons. right. by apply elem_of_cons; left.
  - split; [eexists _, []; split; [done|cbn; lia]|]. intros sups. split.
    + intros Hin. apply list_elem_of_singleton in Hin. discriminate.
    + intros [? _]. done.
Qed.

(** * The entry point and the stacks *)

Section Strings.

Lemma append_cancel_l a x y : a +:+ x = a +:+ y → x = y.
Proof.
  induction a as [|c a IH]; cbn; [done|]. intros [= H]. by apply IH.
Qed.



End Strings.

(** X9. The entry point creates the production stack exactly when the
    context value [environment] is the string [prod], and exactly then
    asks the compliance checks to log suppressed findings; a missing or
    empty context value means [dev], and any other value, such as
    [staging], gets the development stack. The five suppressions are
    registered in every case. *)
Theorem production_iff_context_prod ctx account region :
  let app := main ctx account region in
  (app_stackClass app = ProductionStack ↔ ctx = Some "prod") ∧
  (app_stackClass app = DevelopmentStack ↔ ctx ≠ Some "prod") ∧
  registered_checks (app_compliance app) =
    [ {| verbose := true; logIgnores := bool_decide (ctx = Some "prod") |} ] ∧
  (ctx = None ∨ ctx = Some EmptyString → targetEnvironment app = "dev") ∧
  AddStackSuppressions app_suppressions ∈ app_compliance app.
Proof.
  cbn zeta.
  assert (Hprod : bool_decide (or_string ctx "dev" = "prod") =
                  bool_decide (ctx = Some "prod")).
  { apply bool_decide_ext. destruct ctx as [s|]; cbn.
    - case_bool_decide as Hs.
      + subst s. split; discriminate.
      + split; [by intros ->|]. by intros [= ->].
    - split; discriminate. }
  unfold main, app_props.
  cbn [app_stackClass app_compliance targetEnvironment].
  rewrite !Hprod. clear Hprod.
  split; [|split; [|split; [|split]]].
  - case_bool_decide as Hc; [by split|]. split; [discriminate|done].
  - case_bool_decide as Hc; [|by split]. split; [discriminate|done].
  - reflexivity.
  - by intros [->| ->].
  - apply elem_of_cons. right. apply elem_of_cons. by left.
Qed.

(** X10. The description the entry point writes for the stack, which ends
    with the target environment, never reaches [cdk.Stack]: both stack
    classes replace it with their own fixed text, and keep the account and
    region they were given. *)
Theorem entry_description_is_discarded ctx account region :
  let app := main ctx account region in
  sp_description (stack_superProps app) ≠ sp_description (app_stackProps app) ∧
  sp_description (stack_superProps app) =
    Some (match app_stackClass app with
          | ProductionStack => "Stack di produzione per il Summit Milan 2025"
          | DevelopmentStack => "Stack di sviluppo per il Summit Milan 2025"
          end) ∧
  sp_env (stack_superProps app) = sp_env (app_stackProps app) ∧
  sp_env (app_stackProps app) =
    Some {| env_account := account;
            env_region := or_string region "eu-west-1" |}.
Proof.
  cbn zeta. unfold stack_superProps, main.
  cbn [app_stackClass app_stackProps].
  destruct (bool_decide (or_string ctx "dev" = "prod"));
    (split; [cbn; discriminate|by repeat split]).
Qed.

Local Ltac names_differ H :=
  apply append_cancel_l in H; cbn in H; simplify_eq.

(** X11. The four outputs of a stack have pairwise distinct identifiers and
    pairwise distinct export names, whatever the application name and the
    environment; the first of these names is also the export name that
    [BackendConstruct] gives the endpoint of its API for the same
    application name and environment. *)
Theorem export_names_of_a_stack {Cors : Type} (allOrigins : Cors)
    (props : BackendConstructProps Cors) outputs :
  let outs := exportOutputs (be_appName props) (be_environment props) outputs in
  NoDup (out_id <$> outs) ∧
  NoDup (out_exportName <$> outs) ∧
  ∃ be, new_BackendConstruct allOrigins true props = Some be ∧
        head (out_exportName <$> outs) = Some (endpointExportName be).
Proof.
  cbn zeta. split; [|split].
  - cbn. repeat (apply NoDup_cons; split;
      [rewrite ?elem_of_cons, elem_of_nil; intros H;
       repeat destruct H as [H|H]; discriminate || done|]).
    apply NoDup_nil_2.
  - cbn. repeat (apply NoDup_cons; split;
      [rewrite ?elem_of_cons, elem_of_nil; intros H;
       repeat destruct H as [H|H]; try done; names_differ H|]).
    apply NoDup_nil_2.
  - eexists. split; [reflexivity|]. reflexivity.
Qed.

(** X12. Stacks of one application for two different environments never
    share an export name. *)
Theorem export_names_separate_environments appName env1 env2 outs1 outs2 name :
  env1 ≠ env2 →
  name ∈ out_exportName <$> exportOutputs appName env1 outs1 →
  name ∉ out_exportName <$> exportOutputs appName env2 outs2.
Proof.
  intros Hne H1 H2. cbn in H1, H2.
  rewrite ?elem_of_cons, elem_of_nil in H1.
  rewrite ?elem_of_cons, elem_of_nil in H2.
  repeat destruct H1 as [H1|H1]; try done; subst name;
    repeat destruct H2 as [H2|H2]; try done; names_differ H2.
Qed.

Lemma export_names_separate_environments_witness :
  "dev" ≠ "prod" ∧
  "summit-milan-demo-api-endpoint-dev" ∈
    out_exportName <$>
      exportOutputs "summit-milan-demo" "dev"
        (mkStackOutputs "api" "front" "table" "bucket") ∧
  "summit-milan-demo-api-endpoint-dev" ∉
    out_exportName <$>
      exportOutputs "summit-milan-demo" "prod"
        (mkStackOutputs "api" "front" "table" "bucket").
Proof.
  split; [discriminate|].
  split; [apply elem_of_cons; left; reflexivity|].
  apply (export_names_separate_environments "summit-milan-demo" "dev" "prod"
           (mkStackOutputs "api" "front" "table" "bucket")
           (mkStackOutputs "api" "front" "table" "bucket"));
    [discriminate|apply elem_of_cons; left; reflexivity].
Defined.

(** * The constructs *)

(** X13. In production the table is always retained and always has
    point-in-time recovery, whatever the properties say. The table is
    dropped with the stack exactly when the environment is not [prod] and
    [preserveTableOnDelete] is not [true]; recovery is on exactly in
    production or when it is asked for. *)
Theorem table_protection props :
  let db := new_DatabaseConstruct props in
  (table_removalPolicy db = DESTROY ↔
     db_environment props ≠ "prod" ∧
     db_preserveTableOnDelete props ≠ Some true) ∧
  (pointInTimeRecovery db = Some true ↔
     db_environment props = "prod" ∨
     db_enablePointInTimeRecovery props = Some true) ∧
  (db_environment props = "prod" →
     table_removalPolicy db = RETAIN ∧ pointInTimeRecovery db = Some true).
Proof.
  cbn zeta. unfold new_DatabaseConstruct.
  cbn [table_removalPolicy pointInTimeRecovery].
  case_bool_decide as Hprod; cbn [orb].
  - split; [|split].
    + split; [discriminate|]. by intros [? _].
    + split; [by left|done].
    + done.
  - split; [|split].
    + destruct (db_preserveTableOnDelete props) as [[|]|]; cbn;
        (split; [discriminate || (by intros _; split)|]);
        try done; by intros [_ ?].
    + split; [by right|]. by intros [?|?].
    + done.
Qed.



(** X16. An explicit [enableTracing] always decides whether API requests
    are traced, also [false] outside production and [true] in production;
    without it tracing is on exactly outside production. *)
Theorem backend_tracing {Cors : Type} (allOrigins : Cors)
    (props : BackendConstructProps Cors) :
  ∃ be, new_BackendConstruct allOrigins true props = Some be ∧
    (∀ b, be_api props ≫= ac_enableTracing = Some b →
          dataTraceEnabled be = b) ∧
    (be_api props ≫= ac_enableTracing = None →
       dataTraceEnabled be = negb (bool_decide (be_environment props = "prod"))) ∧
    (dataTraceEnabled be = true ↔
       be_api props ≫= ac_enableTracing = Some true ∨
       (be_api props ≫= ac_enableTracing = None ∧
        be_environment props ≠ "prod")).
Proof.
  eexists. split; [reflexivity|]. cbn [dataTraceEnabled].
  destruct (be_api props) as [[[[|]|] cors]|]; cbn.
  - split; [by intros b [= <-]|]. split; [done|]. split; [by left|done].
  - split; [by intros b [= <-]|]. split; [done|].
    split; [done|]. by intros [?|[? _]].
  - split; [done|]. split; [done|]. case_bool_decide; cbn.
    + split; [done|]. by intros [?|[_ ?]].
    + split; [by right|done].
  - split; [done|]. split; [done|]. case_bool_decide; cbn.
    + split; [done|]. by intros [?|[_ ?]].
    + split; [by right|done].
Qed.

(** X17. The website bucket is always retained in production. The
    constructor asks for a retained bucket together with the automatic
    deletion of its objects exactly in two cases: in production with
    [autoDeleteObjects: true], and outside production with
    [preserveBucketOnDelete: true] unless [autoDeleteObjects] is [false];
    so outside production preserving the bucket does not by itself turn the
    automatic deletion off. *)
Theorem bucket_retention {Protocol : Type} (TLS_V1_2_2021 : Protocol)
    (props : FrontendConstructProps Protocol) :
  let fe := new_FrontendConstruct TLS_V1_2_2021 props in
  let autoDelete := fe_s3 props ≫= s3_autoDeleteObjects in
  let preserve := fe_s3 props ≫= s3_preserveBucketOnDelete in
  (fe_environment props = "prod" → bucket_removalPolicy fe = RETAIN) ∧
  (bucket_removalPolicy fe = RETAIN ∧ autoDeleteObjects fe = true ↔
     (fe_environment props = "prod" ∧ autoDelete = Some true) ∨
     (fe_environment props ≠ "prod" ∧ preserve = Some true ∧
      autoDelete ≠ Some false)).
Proof.
  cbn zeta. unfold new_FrontendConstruct.
  cbn [bucket_removalPolicy autoDeleteObjects].
  case_bool_decide as Hprod; cbn [orb negb].
  - split; [done|].
    destruct (fe_s3 props) as [[[[|]|] pres]|]; cbn.
    + split; [by left|done].
    + split; [by intros [_ ?]|]. by intros [[_ ?]|[? _]].
    + split; [by intros [_ ?]|]. by intros [[_ ?]|[? _]].
    + split; [by intros [_ ?]|]. by intros [[_ ?]|[? _]].
  - split; [done|].
    destruct (fe_s3 props) as [[[[|]|] [[|]|]]|]; cbn;
      (split; [intros [Hr Ha]; try discriminate;
               right; by repeat split
              |intros [[? _]|(_ & Hp & Ha)]; try done]).
Qed.
